(** * ov_workload/setup.py: the packaging script of the OpenVINO wrapper

    The script checks the interpreter's major version, and either prints a
    diagnostic and leaves with status 1, or imports setuptools and hands it
    the package metadata.  It is embedded here as a computation in a small
    state and exception monad, read against the interpreter it runs on. *)

From Stdlib Require Import ZArith PrimFloat.
From stdpp Require Import gmap strings list fin_maps.

Local Open Scope string_scope.
Local Open Scope list_scope.
Local Open Scope Z_scope.

(* A decimal float literal denotes the closest binary64 number, in Python as
   here; a nested inductive needs no generated scheme for its containers. *)
Set Warnings "-inexact-float,-register-all".

(** ** Python values *)

(** The values the script builds: strings, a float, a bool, lists, and dicts
    keyed by strings. *)
Inductive PyVal : Type :=
| PyNone
| PyBool (b : bool)
| PyInt (n : Z)
| PyFloat (x : float)
| PyStr (s : string)
| PyList (items : list PyVal)
| PyDict (entries : gmap string PyVal).

(** The keyword arguments of a call, keyword to value, are a
    [gmap string PyVal]. *)

(** ** Exceptions and results *)

(** [sys.exit(x)] raises [SystemExit] with the object [x] as its code.  A
    failed import raises [ImportError], or since Python 3.6 its subclass
    [ModuleNotFoundError], for the module named.  Anything else that
    setuptools may raise is kept by the name of its type. *)
Inductive PyExc : Type :=
| SystemExit (code : PyVal)
| ImportError (module : string)
| Error (type_name : string).

(** How a computation ends: with a value, with an exception, or not at all
    (a call into setuptools that does not return). *)
Inductive Res (A : Type) : Type :=
| Ok (a : A)
| Raise (e : PyExc)
| Hang.
Arguments Ok {A} a.
Arguments Raise {A} e.
Arguments Hang {A}.

(** The status a POSIX system reports for the interpreter's process, when
    there is one.  The module body running to its end gives 0.  An uncaught
    [SystemExit] gives 0 for the code [None], the low eight bits of an
    integer code (a bool counts as 0 or 1), and 1 for any other object,
    which is printed on standard error.  An integer code that does not fit a
    C [int] is left without a status here.  Any other uncaught exception
    gives 1.  A run that does not end has no status. *)
Definition exit_status (r : Res unit) : option Z :=
  match r with
  | Ok _ => Some 0
  | Raise (SystemExit PyNone) => Some 0
  | Raise (SystemExit (PyBool b)) => Some (if b then 1 else 0)
  | Raise (SystemExit (PyInt n)) =>
      if (-2147483648 <=? n) && (n <? 2147483648)
      then Some (n mod 256) else None
  | Raise (SystemExit _) => Some 1
  | Raise (ImportError _) => Some 1
  | Raise (Error _) => Some 1
  | Hang => None
  end.

(** ** The world the script acts on *)

(** What a run does to its surroundings: the lines written on standard
    output, by the script or by setuptools under it, and the calls the script
    makes to the packaging step, each with its keyword arguments, oldest
    first. *)
Record World : Type := mkWorld {
  stdout : list string;
  setup_calls : list (gmap string PyVal)
}.

(** ** The interpreter *)

(** [sys.version_info]: a five-field tuple; index 0 is [major]. *)
Record VersionInfo : Type := mkVersionInfo {
  major : Z;
  minor : Z;
  micro : Z;
  releaselevel : string;
  serial : Z
}.

(** How one call of [setup] goes: the lines it writes on standard output,
    and whether it returns, raises, or does not come back. *)
Record Completion : Type := mkCompletion {
  output : list string;
  result : Res unit
}.

(** The two names the script imports from setuptools, as they behave where
    the script runs: the packages [find_packages()] discovers under the
    working directory, and how a call of [setup] with given keyword arguments
    goes. *)
Record Setuptools : Type := mkSetuptools {
  discovered : list string;
  completion : gmap string PyVal → Completion
}.

(** An interpreter: its version, and setuptools if it is installed. *)
Record Interp : Type := mkInterp {
  version_info : VersionInfo;
  setuptools : option Setuptools
}.

(** ** The monad: state passing with exceptions *)

Definition Py (A : Type) : Type := World → Res A * World.

#[global] Instance Py_ret : MRet Py := λ A (a : A) (w : World), (Ok a, w).

#[global] Instance Py_bind : MBind Py :=
  λ A B (k : A → Py B) (m : Py A) (w : World),
  match m w with
  | (Ok a, w') => k a w'
  | (Raise e, w') => (Raise e, w')
  | (Hang, w') => (Hang, w')
  end.

(** [print(s)]: one more line on standard output. *)
Definition print (s : string) : Py unit :=
  λ w, (Ok tt, mkWorld (stdout w ++ [s]) (setup_calls w)).

(** [sys.exit(code)]. *)
Definition sys_exit {A : Type} (code : PyVal) : Py A :=
  λ w, (Raise (SystemExit code), w).

(** [from setuptools import setup, find_packages]: binds the two names where
    setuptools is installed, raises [ImportError] where it is not. *)
Definition import_setuptools (py : Interp) : Py Setuptools :=
  λ w,
  match setuptools py with
  | Some st => (Ok st, w)
  | None => (Raise (ImportError "setuptools"), w)
  end.

(** [find_packages()]: the list of the discovered package names. *)
Definition find_packages (st : Setuptools) : Py PyVal :=
  mret (PyList (PyStr <$> discovered st)).

(** [setup] called with the keyword arguments [kw]: the call reaches the
    packaging step, which writes what it writes and then returns, raises, or
    does not come back. *)
Definition setup (st : Setuptools) (kw : gmap string PyVal) : Py unit :=
  λ w,
  (result (completion st kw),
   mkWorld (stdout w ++ output (completion st kw)) (setup_calls w ++ [kw])).

(** ** The script *)

(** Lines 19-22:
<<
    if sys.version_info[0] < 3:
        print('ERROR: must run with python3')
        sys.exit(1)
>> *)
Definition version_guard (v : VersionInfo) : Py unit :=
  if major v <? 3 then
    _ ← print "ERROR: must run with python3";
    sys_exit (PyInt 1)
  else mret tt.

(** Lines 26-35: the keyword arguments of the [setup] call, given the value
    of [find_packages()].  The literal [0.6] denotes, as in Python, the
    binary64 number closest to it. *)
Definition setup_kwargs (packages : PyVal) : gmap string PyVal :=
  <["name" := PyStr "openvino_python_wrapper"]>
  (<["version" := PyFloat 0.6%float]>
  (<["description" := PyStr "Openvino python wrapper for Graphene"]>
  (<["author" := PyStr "Hyperledger Avalon"]>
  (<["url" := PyStr "https://github.com/hyperledger/avalon"]>
  (<["packages" := packages]>
  (<["package_data" :=
       PyDict {[ "" := PyList [PyStr "ov_workload_config.toml"] ]}]>
  (<["include_package_data" := PyBool true]>
  (<["entry_points" := PyDict ∅]> ∅)))))))).

(** The module body, top to bottom: the guard (lines 20-22), the import
    (line 24), then [find_packages()] evaluated as an argument of the call
    of [setup] (lines 26-35). *)
Definition main (py : Interp) : Py unit :=
  _ ← version_guard (version_info py);
  st ← import_setuptools py;
  packages ← find_packages st;
  setup st (setup_kwargs packages).

(** The calls of the packaging step made since the world [w]. *)
Definition calls_since (w w' : World) : list (gmap string PyVal) :=
  drop (length (setup_calls w)) (setup_calls w').

(** The lines printed since the world [w]. *)
Definition printed_since (w w' : World) : list string :=
  drop (length (stdout w)) (stdout w').

(** ** Sample interpreters and worlds *)

Definition empty_world : World := mkWorld [] [].

(** A directory with one package, and a packaging step that writes nothing
    and returns. *)
Definition one_package : Setuptools :=
  mkSetuptools ["ov_workload"] (λ _, mkCompletion [] (Ok tt)).

(** A directory with no package, and a packaging step that writes nothing
    and returns. *)
Definition no_package : Setuptools :=
  mkSetuptools [] (λ _, mkCompletion [] (Ok tt)).

(** A directory with one package, and a packaging step that reports what it
    does and returns. *)
Definition verbose_packaging : Setuptools :=
  mkSetuptools ["ov_workload"]
    (λ _, mkCompletion ["running install"] (Ok tt)).

Definition python_2_7 : Interp :=
  mkInterp (mkVersionInfo 2 7 18 "final" 0) (Some one_package).

Definition python_3_0 : Interp :=
  mkInterp (mkVersionInfo 3 0 0 "final" 0) (Some one_package).

Definition python_3_9 : Interp :=
  mkInterp (mkVersionInfo 3 9 1 "final" 0) (Some one_package).

Definition python_3_9_bare : Interp :=
  mkInterp (mkVersionInfo 3 9 1 "final" 0) (Some no_package).

Definition python_3_9_verbose : Interp :=
  mkInterp (mkVersionInfo 3 9 1 "final" 0) (Some verbose_packaging).

(** A Python 3 on which setuptools is not installed. *)
Definition python_3_12_no_setuptools : Interp :=
  mkInterp (mkVersionInfo 3 12 0 "final" 0) None.

(** A world in which a line was printed and a call made before the script
    starts. *)
Definition used_world : World :=
  mkWorld ["earlier output"] [{[ "name" := PyStr "earlier" ]}].

(** * Properties *)

(** ** Equations of the three paths *)

Section Paths.
Variable py : Interp.
Variable w : World.

Let v := version_info py.

Lemma version_guard_old :
  major v < 3 →
  version_guard v w =
    (Raise (SystemExit (PyInt 1)),
     mkWorld (stdout w ++ ["ERROR: must run with python3"]) (setup_calls w)).
Proof.
  intros Hlt. unfold version_guard.
  destruct (Z.ltb_spec (major v) 3) as [_|Hge]; [reflexivity | lia].
Qed.

Lemma version_guard_new :
  3 ≤ major v → version_guard v w = (Ok tt, w).
Proof.
  intros Hge. unfold version_guard.
  destruct (Z.ltb_spec (major v) 3) as [Hlt|_]; [lia | reflexivity].
Qed.

Lemma main_old :
  major v < 3 →
  main py w =
    (Raise (SystemExit (PyInt 1)),
     mkWorld (stdout w ++ ["ERROR: must run with python3"]) (setup_calls w)).
Proof.
  intros Hlt. unfold main, mbind, Py_bind.
  fold v. rewrite version_guard_old by exact Hlt. reflexivity.
Qed.

Lemma main_no_setuptools :
  3 ≤ major v → setuptools py = None →
  main py w = (Raise (ImportError "setuptools"), w).
Proof.
  intros Hge Hnone. unfold main, mbind, Py_bind.
  fold v. rewrite version_guard_new by exact Hge.
  unfold import_setuptools. rewrite Hnone. reflexivity.
Qed.

Lemma main_new (st : Setuptools) :
  3 ≤ major v → setuptools py = Some st →
  main py w =
    (result (completion st (setup_kwargs (PyList (PyStr <$> discovered st)))),
     mkWorld
       (stdout w ++
        output (completion st (setup_kwargs (PyList (PyStr <$> discovered st)))))
       (setup_calls w ++ [setup_kwargs (PyList (PyStr <$> discovered st))])).
Proof.
  intros Hge Hsome. unfold main, mbind, Py_bind.
  fold v. rewrite version_guard_new by exact Hge.
  unfold import_setuptools. rewrite Hsome. reflexivity.
Qed.
End Paths.

Lemma calls_since_app (w : World) (out : list string)
    (l : list (gmap string PyVal)) :
  calls_since w (mkWorld out (setup_calls w ++ l)) = l.
Proof. unfold calls_since. simpl. apply drop_app_length. Qed.

Lemma calls_since_refl (w : World) (out : list string) :
  calls_since w (mkWorld out (setup_calls w)) = [].
Proof. unfold calls_since. simpl. apply drop_all. Qed.

Lemma printed_since_app (w : World) (l : list string)
    (cs : list (gmap string PyVal)) :
  printed_since w (mkWorld (stdout w ++ l) cs) = l.
Proof. unfold printed_since. simpl. apply drop_app_length. Qed.

Lemma calls_since_old (py : Interp) (w : World) :
  major (version_info py) < 3 → calls_since w (main py w).2 = [].
Proof.
  intros Hlt. rewrite main_old by exact Hlt. apply calls_since_refl.
Qed.

Lemma calls_since_no_setuptools (py : Interp) (w : World) :
  3 ≤ major (version_info py) → setuptools py = None →
  calls_since w (main py w).2 = [].
Proof.
  intros Hge Hnone. rewrite main_no_setuptools by assumption.
  destruct w. apply calls_since_refl.
Qed.

Lemma calls_since_new (py : Interp) (st : Setuptools) (w : World) :
  3 ≤ major (version_info py) → setuptools py = Some st →
  calls_since w (main py w).2 =
    [setup_kwargs (PyList (PyStr <$> discovered st))].
Proof.
  intros Hge Hsome. rewrite (main_new py w st) by assumption.
  apply calls_since_app.
Qed.

(** Every call of the packaging step the script makes is made on an
    interpreter of major version 3 or more that has setuptools, and carries
    [setup_kwargs] of the discovered packages. *)
Lemma calls_since_inv (py : Interp) (w : World) (kw : gmap string PyVal) :
  kw ∈ calls_since w (main py w).2 →
  ∃ st,
    3 ≤ major (version_info py) ∧ setuptools py = Some st ∧
    kw = setup_kwargs (PyList (PyStr <$> discovered st)).
Proof.
  intros Hin. destruct (Z.lt_ge_cases (major (version_info py)) 3) as [Hlt|Hge].
  - rewrite calls_since_old in Hin by exact Hlt. inversion Hin.
  - destruct (setuptools py) as [st|] eqn:Hst.
    + rewrite (calls_since_new py st) in Hin by assumption.
      apply list_elem_of_singleton in Hin. exists st. auto.
    + rewrite calls_since_no_setuptools in Hin by assumption. inversion Hin.
Qed.

(** ** The failure path *)

(** C1: on an interpreter whose major version is below 3, the script prints
    exactly the line [ERROR: must run with python3] on standard output and
    ends by [SystemExit(1)], so the process leaves with status 1. *)
Theorem old_interpreter_reports_and_exits (py : Interp) (w : World) :
  major (version_info py) < 3 →
  printed_since w (main py w).2 = ["ERROR: must run with python3"] ∧
  stdout (main py w).2 = stdout w ++ ["ERROR: must run with python3"] ∧
  (main py w).1 = Raise (SystemExit (PyInt 1)) ∧
  exit_status (main py w).1 = Some 1.
Proof.
  intros Hlt. rewrite main_old by exact Hlt. simpl.
  split; [apply printed_since_app | auto].
Qed.

Lemma old_interpreter_reports_and_exits_witness :
  major (version_info python_2_7) < 3 ∧
  (printed_since empty_world (main python_2_7 empty_world).2
     = ["ERROR: must run with python3"] ∧
   stdout (main python_2_7 empty_world).2
     = stdout empty_world ++ ["ERROR: must run with python3"] ∧
   (main python_2_7 empty_world).1 = Raise (SystemExit (PyInt 1)) ∧
   exit_status (main python_2_7 empty_world).1 = Some 1).
Proof.
  split.
  - simpl. lia.
  - apply (old_interpreter_reports_and_exits python_2_7 empty_world).
    simpl. lia.
Defined.

(** C4: on an interpreter whose major version is below 3, the packaging step
    is never called: the record of [setup] calls is the one the script
    started from. *)
Theorem old_interpreter_packages_nothing (py : Interp) (w : World) :
  major (version_info py) < 3 →
  setup_calls (main py w).2 = setup_calls w ∧
  calls_since w (main py w).2 = [].
Proof.
  intros Hlt. split.
  - rewrite main_old by exact Hlt. reflexivity.
  - apply calls_since_old, Hlt.
Qed.

Lemma old_interpreter_packages_nothing_witness :
  major (version_info python_2_7) < 3 ∧
  (setup_calls (main python_2_7 empty_world).2 = setup_calls empty_world ∧
   calls_since empty_world (main python_2_7 empty_world).2 = []).
Proof.
  split.
  - simpl. lia.
  - apply (old_interpreter_packages_nothing python_2_7 empty_world).
    simpl. lia.
Defined.

(** ** The success path *)

(** C2, as stated, fails: on a Python 3 without setuptools the import at
    line 24 raises, and the packaging step is not called once but never. *)
Lemma no_setuptools_no_setup_call :
  3 ≤ major (version_info python_3_12_no_setuptools) ∧
  length (calls_since empty_world
            (main python_3_12_no_setuptools empty_world).2) ≠ 1%nat.
Proof.
  split.
  - simpl. lia.
  - vm_compute. discriminate.
Qed.

(** C2, amended: on an interpreter whose major version is 3 or more and
    that has setuptools, the script calls the packaging step exactly once
    and writes nothing itself: the lines that reach standard output are the
    ones that call writes, so the error line is there only if the packaging
    step wrote it. *)
Theorem new_interpreter_calls_setup_once
    (py : Interp) (st : Setuptools) (w : World) :
  3 ≤ major (version_info py) →
  setuptools py = Some st →
  ∃ kw,
    calls_since w (main py w).2 = [kw] ∧
    setup_calls (main py w).2 = setup_calls w ++ [kw] ∧
    printed_since w (main py w).2 = output (completion st kw) ∧
    ("ERROR: must run with python3" ∈ printed_since w (main py w).2
     → "ERROR: must run with python3" ∈ output (completion st kw)).
Proof.
  intros Hge Hsome. eexists.
  split; [apply (calls_since_new py st w Hge Hsome)|].
  rewrite (main_new py w st Hge Hsome). simpl.
  rewrite printed_since_app. auto.
Qed.

Lemma new_interpreter_calls_setup_once_witness :
  3 ≤ major (version_info python_3_9_verbose) ∧
  setuptools python_3_9_verbose = Some verbose_packaging ∧
  ∃ kw,
    calls_since used_world (main python_3_9_verbose used_world).2 = [kw] ∧
    setup_calls (main python_3_9_verbose used_world).2
      = setup_calls used_world ++ [kw] ∧
    printed_since used_world (main python_3_9_verbose used_world).2
      = output (completion verbose_packaging kw) ∧
    ("ERROR: must run with python3"
       ∈ printed_since used_world (main python_3_9_verbose used_world).2
     → "ERROR: must run with python3"
         ∈ output (completion verbose_packaging kw)).
Proof.
  split; [simpl; lia|]. split; [reflexivity|].
  apply (new_interpreter_calls_setup_once
           python_3_9_verbose verbose_packaging used_world).
  - simpl. lia.
  - reflexivity.
Defined.

(** C6, as stated, fails: on a Python 3 without setuptools the run
    registers nothing with the packaging step. *)
Lemma no_setuptools_no_metadata :
  3 ≤ major (version_info python_3_12_no_setuptools) ∧
  ¬ ∃ kw,
      setup_calls (main python_3_12_no_setuptools empty_world).2
        = setup_calls empty_world ++ [kw].
Proof.
  split.
  - simpl. lia.
  - intros [kw Hkw]. vm_compute in Hkw. discriminate Hkw.
Qed.

(** C6, amended: on an interpreter whose major version is 3 or more and
    that has setuptools, the one call of the packaging step carries a name,
    a version, a description, an author, a homepage URL, the packages
    [find_packages()] discovered, and a [package_data] entry listing one
    data file. *)
Theorem new_interpreter_registers_metadata
    (py : Interp) (st : Setuptools) (w : World) :
  3 ≤ major (version_info py) →
  setuptools py = Some st →
  ∃ kw,
    setup_calls (main py w).2 = setup_calls w ++ [kw] ∧
    kw !! "name" = Some (PyStr "openvino_python_wrapper") ∧
    kw !! "version" = Some (PyFloat 0.6%float) ∧
    kw !! "description" = Some (PyStr "Openvino python wrapper for Graphene") ∧
    kw !! "author" = Some (PyStr "Hyperledger Avalon") ∧
    kw !! "url" = Some (PyStr "https://github.com/hyperledger/avalon") ∧
    kw !! "packages" = Some (PyList (PyStr <$> discovered st)) ∧
    ∃ files,
      kw !! "package_data" = Some (PyDict {[ "" := PyList files ]}) ∧
      length files = 1%nat.
Proof.
  intros Hge Hsome. rewrite (main_new py w st Hge Hsome). simpl.
  eexists. split; [reflexivity|].
  repeat (split; [reflexivity|]).
  eexists. split; reflexivity.
Qed.

Lemma new_interpreter_registers_metadata_witness :
  3 ≤ major (version_info python_3_9) ∧
  setuptools python_3_9 = Some one_package ∧
  ∃ kw,
    setup_calls (main python_3_9 empty_world).2
      = setup_calls empty_world ++ [kw] ∧
    kw !! "name" = Some (PyStr "openvino_python_wrapper") ∧
    kw !! "version" = Some (PyFloat 0.6%float) ∧
    kw !! "description" = Some (PyStr "Openvino python wrapper for Graphene") ∧
    kw !! "author" = Some (PyStr "Hyperledger Avalon") ∧
    kw !! "url" = Some (PyStr "https://github.com/hyperledger/avalon") ∧
    kw !! "packages" = Some (PyList (PyStr <$> discovered one_package)) ∧
    ∃ files,
      kw !! "package_data" = Some (PyDict {[ "" := PyList files ]}) ∧
      length files = 1%nat.
Proof.
  split; [simpl; lia|]. split; [reflexivity|].
  apply (new_interpreter_registers_metadata python_3_9 one_package empty_world).
  - simpl. lia.
  - reflexivity.
Defined.

(** ** What the packaging step receives *)

(** C3: every call of the packaging step the script makes carries the name
    [openvino_python_wrapper], the version [0.6] and the data file
    [ov_workload_config.toml], as written in the script. *)
Theorem setup_receives_declared_values
    (py : Interp) (w : World) (kw : gmap string PyVal) :
  kw ∈ calls_since w (main py w).2 →
  kw !! "name" = Some (PyStr "openvino_python_wrapper") ∧
  kw !! "version" = Some (PyFloat 0.6%float) ∧
  kw !! "package_data"
    = Some (PyDict {[ "" := PyList [PyStr "ov_workload_config.toml"] ]}).
Proof.
  intros Hin. apply calls_since_inv in Hin as (st & _ & _ & ->).
  repeat split.
Qed.

Lemma setup_receives_declared_values_witness :
  setup_kwargs (PyList [PyStr "ov_workload"])
    ∈ calls_since empty_world (main python_3_0 empty_world).2 ∧
  (setup_kwargs (PyList [PyStr "ov_workload"]) !! "name"
     = Some (PyStr "openvino_python_wrapper") ∧
   setup_kwargs (PyList [PyStr "ov_workload"]) !! "version"
     = Some (PyFloat 0.6%float) ∧
   setup_kwargs (PyList [PyStr "ov_workload"]) !! "package_data"
     = Some (PyDict {[ "" := PyList [PyStr "ov_workload_config.toml"] ]})).
Proof.
  assert (Hin : setup_kwargs (PyList [PyStr "ov_workload"])
                  ∈ calls_since empty_world (main python_3_0 empty_world).2)
    by (vm_compute; apply list_elem_of_here).
  split.
  - exact Hin.
  - exact (setup_receives_declared_values python_3_0 empty_world _ Hin).
Defined.

(** C5: every call of the packaging step the script makes carries an empty
    [entry_points] dict: no executable hook is registered. *)
Theorem setup_receives_no_entry_points
    (py : Interp) (w : World) (kw : gmap string PyVal) :
  kw ∈ calls_since w (main py w).2 →
  ∃ hooks : gmap string PyVal,
    kw !! "entry_points" = Some (PyDict hooks) ∧
    hooks = ∅ ∧ size hooks = 0%nat.
Proof.
  intros Hin. apply calls_since_inv in Hin as (st & _ & _ & ->).
  exists ∅. repeat split.
Qed.

Lemma setup_receives_no_entry_points_witness :
  setup_kwargs (PyList [PyStr "ov_workload"])
    ∈ calls_since empty_world (main python_3_0 empty_world).2 ∧
  ∃ hooks : gmap string PyVal,
    setup_kwargs (PyList [PyStr "ov_workload"]) !! "entry_points"
      = Some (PyDict hooks) ∧
    hooks = ∅ ∧ size hooks = 0%nat.
Proof.
  assert (Hin : setup_kwargs (PyList [PyStr "ov_workload"])
                  ∈ calls_since empty_world (main python_3_0 empty_world).2)
    by (vm_compute; apply list_elem_of_here).
  split.
  - exact Hin.
  - exact (setup_receives_no_entry_points python_3_0 empty_world _ Hin).
Defined.

(** C9: in every call of the packaging step the script makes, the value of
    [version] is the float [0.6]; it is not a string, and so not the string
    ["0.6"]. *)
Theorem setup_receives_float_version
    (py : Interp) (w : World) (kw : gmap string PyVal) :
  kw ∈ calls_since w (main py w).2 →
  kw !! "version" = Some (PyFloat 0.6%float) ∧
  (∀ s : string, kw !! "version" ≠ Some (PyStr s)) ∧
  kw !! "version" ≠ Some (PyStr "0.6").
Proof.
  intros Hin. apply calls_since_inv in Hin as (st & _ & _ & ->).
  assert (Hv : setup_kwargs (PyList (PyStr <$> discovered st))
                 !! "version" = Some (PyFloat 0.6%float)) by reflexivity.
  rewrite Hv. repeat split; intros; discriminate.
Qed.

Lemma setup_receives_float_version_witness :
  setup_kwargs (PyList [PyStr "ov_workload"])
    ∈ calls_since empty_world (main python_3_0 empty_world).2 ∧
  (setup_kwargs (PyList [PyStr "ov_workload"]) !! "version"
     = Some (PyFloat 0.6%float) ∧
   (∀ s : string,
      setup_kwargs (PyList [PyStr "ov_workload"]) !! "version"
        ≠ Some (PyStr s)) ∧
   setup_kwargs (PyList [PyStr "ov_workload"]) !! "version"
     ≠ Some (PyStr "0.6")).
Proof.
  assert (Hin : setup_kwargs (PyList [PyStr "ov_workload"])
                  ∈ calls_since empty_world (main python_3_0 empty_world).2)
    by (vm_compute; apply list_elem_of_here).
  split.
  - exact Hin.
  - exact (setup_receives_float_version python_3_0 empty_world _ Hin).
Defined.

(** ** The run as a whole *)



(** C8: the guard reads the major version only.  With major version 3 it
    passes, printing nothing and raising nothing, whatever the minor
    version, the micro version, the release level and the serial are. *)
Theorem guard_passes_on_major_3
    (v : VersionInfo) (mi mc : Z) (rl : string) (se : Z) (w : World) :
  major v = 3 →
  version_guard v w = (Ok tt, w) ∧
  version_guard (mkVersionInfo (major v) mi mc rl se) w = version_guard v w.
Proof.
  intros H3. unfold version_guard. simpl. rewrite H3. split; reflexivity.
Qed.

Lemma guard_passes_on_major_3_witness :
  major (version_info python_3_0) = 3 ∧
  (version_guard (version_info python_3_0) empty_world = (Ok tt, empty_world) ∧
   version_guard
     (mkVersionInfo (major (version_info python_3_0)) 9 1 "final" 0)
     empty_world
   = version_guard (version_info python_3_0) empty_world).
Proof.
  split.
  - reflexivity.
  - apply (guard_passes_on_major_3 (version_info python_3_0) 9 1 "final" 0
             empty_world).
    reflexivity.
Defined.

(** ** Determinism *)

(** C10, as stated, fails: two interpreters of major version 3, one started
    in a directory where [find_packages()] discovers a package and one where
    it discovers none, hand different [packages] to the packaging step. *)
Lemma same_major_different_packages :
  major (version_info python_3_9) = major (version_info python_3_9_bare) ∧
  calls_since empty_world (main python_3_9 empty_world).2
    ≠ calls_since empty_world (main python_3_9_bare empty_world).2.
Proof.
  split; [reflexivity|]. intros Heq.
  apply (f_equal (λ cs, head cs ≫= (.!! "packages"))) in Heq.
  vm_compute in Heq. discriminate Heq.
Qed.

(** C10, amended: two runs from the same world, on interpreters of the same
    major version that both have setuptools, for which [find_packages()]
    discovers the same packages and [setup] goes the same way, are equal:
    same lines printed, same end, same calls of the packaging step. *)
Theorem same_major_same_run
    (py1 py2 : Interp) (st1 st2 : Setuptools) (w : World) :
  major (version_info py1) = major (version_info py2) →
  setuptools py1 = Some st1 →
  setuptools py2 = Some st2 →
  discovered st1 = discovered st2 →
  (∀ kw, completion st1 kw = completion st2 kw) →
  main py1 w = main py2 w.
Proof.
  intros Hmaj Hst1 Hst2 Hdisc Hcompl.
  destruct (Z.lt_ge_cases (major (version_info py1)) 3) as [Hlt|Hge].
  - rewrite !main_old by lia. reflexivity.
  - rewrite (main_new py1 w st1) by assumption.
    rewrite (main_new py2 w st2) by (assumption || lia).
    rewrite Hdisc, Hcompl. reflexivity.
Qed.

Lemma same_major_same_run_witness :
  major (version_info python_3_0) = major (version_info python_3_9) ∧
  setuptools python_3_0 = Some one_package ∧
  setuptools python_3_9 = Some one_package ∧
  discovered one_package = discovered one_package ∧
  (∀ kw, completion one_package kw = completion one_package kw) ∧
  main python_3_0 empty_world = main python_3_9 empty_world.
Proof.
  split; [reflexivity|]. split; [reflexivity|]. split; [reflexivity|].
  split; [reflexivity|]. split.
  - intros kw. reflexivity.
  - apply (same_major_same_run python_3_0 python_3_9 one_package one_package
             empty_world).
    + reflexivity.
    + reflexivity.
    + reflexivity.
    + reflexivity.
    + intros kw. reflexivity.
Defined.

(** * Further properties of the script *)

(** ** When the packaging step is called *)

(** X1: a run makes no call of the packaging step exactly when the major
    version is below 3 or setuptools is not installed, and no run makes more
    than one.  A run ends by [SystemExit(1)] without a call exactly when the
    major version is below 3. *)
Theorem setup_called_iff_new_and_installed (py : Interp) (w : World) :
  (calls_since w (main py w).2 = []
   ↔ major (version_info py) < 3 ∨ setuptools py = None) ∧
  (length (calls_since w (main py w).2) ≤ 1)%nat ∧
  ((main py w).1 = Raise (SystemExit (PyInt 1)) ∧
   calls_since w (main py w).2 = []
   ↔ major (version_info py) < 3).
Proof.
  destruct (Z.lt_ge_cases (major (version_info py)) 3) as [Hlt|Hge].
  - rewrite calls_since_old by exact Hlt.
    rewrite main_old by exact Hlt. simpl.
    repeat split; auto.
  - destruct (setuptools py) as [st|] eqn:Hst.
    + rewrite (calls_since_new py st w Hge Hst). simpl.
      repeat split; try lia; try discriminate.
      * intros [Hlt|Hnone]; [lia | discriminate Hnone].
      * intros [_ Hnil]. discriminate Hnil.
    + rewrite (calls_since_no_setuptools py w Hge Hst).
      rewrite (main_no_setuptools py w Hge Hst). simpl.
      repeat split; auto; try lia.
      intros [Hexit _]. discriminate Hexit.
Qed.

(** ** The keywords of the call *)

(** X6: every call of the packaging step the script makes carries exactly
    the nine keywords written in the script and no other, and among them
    [include_package_data] is [True]. *)
Theorem setup_receives_nine_keywords
    (py : Interp) (w : World) (kw : gmap string PyVal) :
  kw ∈ calls_since w (main py w).2 →
  dom kw =
    ({[ "name"; "version"; "description"; "author"; "url"; "packages";
        "package_data"; "include_package_data"; "entry_points" ]}
     : gset string) ∧
  size kw = 9%nat ∧
  kw !! "include_package_data" = Some (PyBool true).
Proof.
  intros Hin. apply calls_since_inv in Hin as (st & _ & _ & ->).
  split; [|split; reflexivity].
  unfold setup_kwargs. rewrite !dom_insert_L, dom_empty_L. set_solver.
Qed.

Lemma setup_receives_nine_keywords_witness :
  setup_kwargs (PyList [PyStr "ov_workload"])
    ∈ calls_since used_world (main python_3_0 used_world).2 ∧
  (dom (setup_kwargs (PyList [PyStr "ov_workload"])) =
     ({[ "name"; "version"; "description"; "author"; "url"; "packages";
         "package_data"; "include_package_data"; "entry_points" ]}
      : gset string) ∧
   size (setup_kwargs (PyList [PyStr "ov_workload"])) = 9%nat ∧
   setup_kwargs (PyList [PyStr "ov_workload"]) !! "include_package_data"
     = Some (PyBool true)).
Proof.
  assert (Hin : setup_kwargs (PyList [PyStr "ov_workload"])
                  ∈ calls_since used_world (main python_3_0 used_world).2)
    by (vm_compute; apply list_elem_of_here).
  split.
  - exact Hin.
  - exact (setup_receives_nine_keywords python_3_0 used_world _ Hin).
Defined.
